(** * ShetSharathi: the crop price dashboard server (src/app.js)

    A shallow embedding of the Express route handlers [routeHandlers.getCrops]
    and [routeHandlers.getDashboard], of the three SQL statements they send to
    SQLite, and of the SIGINT listener installed by
    [serverManager.setupShutdown].

    A handler run is the list of effects it performs, in order: statements
    sent with [db.all], console lines, the HTTP response.  Callbacks are
    written in continuation-passing style, as in the source. *)

From Stdlib Require Import ZArith List String Lia Sorted.
From Stdlib Require Import OrderedTypeEx DecimalString.
From stdpp Require Import gmap strings list sorting.

Local Open Scope Z_scope.
Local Open Scope string_scope.
Local Open Scope list_scope.

(** ** JavaScript values and JSON *)

(** A column value as node-sqlite3 hands it to JavaScript. *)
Inductive value :=
| VNull
| VNum (n : Z)
| VText (s : string).

#[global] Instance value_eq_dec : EqDecision value.
Proof. solve_decision. Defined.

(** A result row is a JavaScript object: column name to value.  Reading a
    property that is not there gives [undefined], here [None]. *)
Definition row := list (string * value).

Fixpoint get (r : row) (col : string) : option value :=
  match r with
  | [] => None
  | (c, v) :: r' => if String.eqb c col then Some v else get r' col
  end.

(** [a === b] on two property reads. *)
Definition strict_eq (a b : option value) : bool := bool_decide (a = b).

#[warnings="-register-all"]
Inductive json :=
| JNull
| JNum (n : Z)
| JStr (s : string)
| JArr (items : list json)
| JObj (fields : list (string * json)).

Definition json_of_value (v : value) : json :=
  match v with
  | VNull => JNull
  | VNum n => JNum n
  | VText s => JStr s
  end.

(** [JSON.stringify] writes [undefined] as [null] inside an array ... *)
Definition json_item (v : option value) : json :=
  match v with
  | Some v => json_of_value v
  | None => JNull
  end.

(** ... and leaves a property whose value is [undefined] out of an object. *)
Fixpoint defined_props (props : list (string * option value))
    : list (string * json) :=
  match props with
  | [] => []
  | (k, Some v) :: props' => (k, json_of_value v) :: defined_props props'
  | (_, None) :: props' => defined_props props'
  end.

Definition json_object (props : list (string * option value)) : json :=
  JObj (defined_props props).

(** [String(n)] for an integer, as template literals and GROUP_CONCAT print it. *)
Definition decimal (n : Z) : string := NilZero.string_of_int (Z.to_int n).

(** [`${v}`] *)
Definition interpolate (v : option value) : string :=
  match v with
  | None => "undefined"
  | Some VNull => "null"
  | Some (VNum n) => decimal n
  | Some (VText s) => s
  end.

(** ** The three SQL statements *)

Inductive statement :=
| distinctCropsQuery
    (* SELECT DISTINCT product_name FROM store_product *)
| debugQuery
    (* SELECT up.state, sp.price
       FROM store_product sp JOIN app_userprofile up ON sp.farmerID = up.id
       WHERE sp.product_name = ?
       ORDER BY up.state, sp.price *)
| aggregateQuery.
    (* SELECT up.state, MIN(sp.price) AS min_price, MAX(sp.price) AS max_price,
              COUNT( * ) AS price_count, GROUP_CONCAT(sp.price) AS all_prices
       FROM store_product sp JOIN app_userprofile up ON sp.farmerID = up.id
       WHERE sp.product_name = ?
       GROUP BY up.state
       ORDER BY up.state *)

#[global] Instance statement_eq_dec : EqDecision statement.
Proof. solve_decision. Defined.

(** The handle returned by [new sqlite3.Database(...)]: [db.all(sql, params, cb)]
    calls [cb] with an error message or with the rows; [db.close(cb)] calls
    [cb] with an error message or with nothing. *)
Record Database := {
  all : statement -> list string -> string + list row;
  close : option string
}.

(** ** Effects *)

Inductive level := Log | Warn | Error.

Inductive console_arg :=
| AText (s : string)
| ARows (rows : list row)
| AValue (v : option value).

Inductive event :=
| Query (sql : statement) (params : list string)      (* db.all(sql, params, ...) *)
| Console (lvl : level) (msg : string) (args : list console_arg)
| Respond (status : Z) (body : json)                  (* res.status(s).json(body) *)
| Close                                               (* db.close(...) *)
| Exit (code : Z).                                    (* process.exit(code) *)

Definition db_all (db : Database) (sql : statement) (params : list string)
    (callback : string + list row -> list event) : list event :=
  Query sql params :: callback (all db sql params).

Definition db_close (db : Database) (callback : option string -> list event)
    : list event :=
  Close :: callback (close db).

(** What a run sent to the store, and what it answered to the client. *)
Fixpoint queries (tr : list event) : list (statement * list string) :=
  match tr with
  | [] => []
  | Query sql params :: tr' => (sql, params) :: queries tr'
  | _ :: tr' => queries tr'
  end.

Fixpoint responses (tr : list event) : list (Z * json) :=
  match tr with
  | [] => []
  | Respond status body :: tr' => (status, body) :: responses tr'
  | _ :: tr' => responses tr'
  end.

Fixpoint console (tr : list event) : list (level * string * list console_arg) :=
  match tr with
  | [] => []
  | Console lvl msg args :: tr' => (lvl, msg, args) :: console tr'
  | _ :: tr' => console tr'
  end.

(** ** Route handlers *)

(** [req.query]: the parsed query string, each parameter given at most once
    (so its value is a string). *)
Record request := { query : gmap string string }.

Definition error_body (msg : string) : json := JObj [("error", JStr msg)].

Module routeHandlers.

Definition getCrops (db : Database) (req : request) : list event :=
  db_all db distinctCropsQuery [] (fun res =>
    match res with
    | inl err =>
        [ Console Error "Error fetching crops:" [AText err];
          Respond 500 (error_body "Error fetching crops") ]
    | inr rows =>
        [ Respond 200
            (JObj [("crops",
                    JArr (map (fun row => json_item (get row "product_name")) rows))]) ]
    end).

(** [!crop] holds when the parameter is absent or the empty string; every
    other string is truthy. *)
Definition getDashboard (db : Database) (req : request) : list event :=
  match query req !! "crop" with
  | None | Some "" =>
      [ Respond 400 (error_body "Crop name is required") ]
  | Some crop =>
      db_all db debugQuery [crop] (fun res =>
        match res with
        | inl err =>
            [ Console Error "Error in debug query:" [AText err];
              Respond 500 (error_body "Database error") ]
        | inr rawRows =>
            Console Log ("Raw data for " +:+ crop +:+ ":") [ARows rawRows] ::
            db_all db aggregateQuery [crop] (fun res =>
              match res with
              | inl err =>
                  [ Console Error "Error fetching dashboard data:" [AText err];
                    Respond 500 (error_body "Error fetching dashboard data") ]
              | inr rows =>
                  Console Log ("Aggregated results for " +:+ crop +:+ ":") [ARows rows] ::
                  flat_map (fun row =>
                    if strict_eq (get row "min_price") (get row "max_price")
                    then [ Console Warn
                             ("Warning: Min and Max prices are equal for "
                                +:+ interpolate (get row "state") +:+ ":")
                             [AValue (get row "all_prices")] ]
                    else []) rows ++
                  [ Respond 200
                      (JArr (map (fun row =>
                               json_object [ ("state", get row "state");
                                             ("min_price", get row "min_price");
                                             ("max_price", get row "max_price");
                                             ("price_count", get row "price_count") ])
                             rows)) ]
              end)
        end)
  end.

End routeHandlers.

(** ** Shutdown *)

Module serverManager.

(** The listener registered with [process.on('SIGINT', ...)]. *)
Definition on_SIGINT (db : Database) : list event :=
  db_close db (fun err =>
    match err with
    | Some msg => [ Console Error "Error closing database:" [AText msg] ]
    | None => []
    end ++
    [ Console Log "Database connection closed" []; Exit 0 ]).

(** [process.on(name, listener)] appends to the listeners of the process;
    [setupShutdown] adds the one above. *)
Definition setupShutdown (db : Database)
    (listeners : list (string * list event)) : list (string * list event) :=
  listeners ++ [("SIGINT", on_SIGINT db)].

End serverManager.

(** Delivering a signal runs its listeners in registration order; nothing
    runs after [process.exit]. *)
Fixpoint until_exit (tr : list event) : list event :=
  match tr with
  | [] => []
  | Exit code :: _ => [Exit code]
  | e :: tr' => e :: until_exit tr'
  end.

Definition deliver (signal : string) (listeners : list (string * list event))
    : list event :=
  until_exit
    (flat_map (fun l => if String.eqb (fst l) signal then snd l else []) listeners).

(** ** The store and the meaning of the three statements *)

(** Modelled from the spec: the schema of the two tables, which the
    repository does not create (spec section 3).  A listing has a product
    name, a price and a seller reference; a seller profile has an identity
    and a region.  [id] is the key of [app_userprofile], so that table is a
    finite map from [id] to [state]; a [farmerID] outside its domain is a
    listing without a seller.  Prices are integers: the statements only
    compare and print them. *)
Record listing := {
  product_name : string;
  price : Z;
  farmerID : Z
}.

Record tables := {
  store_product : list listing;
  app_userprofile : gmap Z string
}.

(** [SELECT DISTINCT]: a name is emitted the first time the scan meets it. *)
Fixpoint distinct (seen names : list string) : list string :=
  match names with
  | [] => []
  | n :: names' =>
      if bool_decide (n ∈ seen) then distinct seen names'
      else n :: distinct (n :: seen) names'
  end.

(** [FROM store_product sp JOIN app_userprofile up ON sp.farmerID = up.id
     WHERE sp.product_name = ?]: the (state, price) pairs of the listings of
    the crop that have a seller, in scan order.  An unbound [?] is NULL and
    equals nothing. *)
Definition joined (t : tables) (crop : option string) : list (string * Z) :=
  flat_map (fun sp =>
    match app_userprofile t !! farmerID sp with
    | Some state =>
        if bool_decide (Some (product_name sp) = crop) then [(state, price sp)] else []
    | None => []
    end) (store_product t).

(** [ORDER BY up.state, sp.price]: states by the BINARY collation (bytes,
    left to right), then prices. *)
Definition raw_le (a b : string * Z) : bool :=
  match String.compare (fst a) (fst b) with
  | Lt => true
  | Eq => Z.leb (snd a) (snd b)
  | Gt => false
  end.

Fixpoint raw_insert (r : string * Z) (sorted : list (string * Z)) : list (string * Z) :=
  match sorted with
  | [] => [r]
  | r' :: rest => if raw_le r r' then r :: sorted else r' :: raw_insert r rest
  end.

Definition order_raw (rs : list (string * Z)) : list (string * Z) :=
  fold_right raw_insert [] rs.

(** [GROUP BY up.state ORDER BY up.state]: one accumulator per state, kept
    in ascending order of state; every joined row steps the accumulator of
    its state, as the aggregate functions MIN, MAX, COUNT and GROUP_CONCAT
    do. *)
Record group := {
  g_state : string;
  g_min : Z;
  g_max : Z;
  g_count : Z;
  g_prices : list Z
}.

Definition group_start (state : string) (p : Z) : group :=
  {| g_state := state; g_min := p; g_max := p; g_count := 1; g_prices := [p] |}.

Definition group_step (g : group) (p : Z) : group :=
  {| g_state := g_state g;
     g_min := Z.min (g_min g) p;
     g_max := Z.max (g_max g) p;
     g_count := g_count g + 1;
     g_prices := g_prices g ++ [p] |}.

Fixpoint group_insert (state : string) (p : Z) (gs : list group) : list group :=
  match gs with
  | [] => [group_start state p]
  | g :: gs' =>
      match String.compare state (g_state g) with
      | Lt => group_start state p :: gs
      | Eq => group_step g p :: gs'
      | Gt => g :: group_insert state p gs'
      end
  end.

Definition group_by_state (rs : list (string * Z)) : list group :=
  fold_left (fun gs r => group_insert (fst r) (snd r) gs) rs [].

Definition group_concat (ps : list Z) : string :=
  String.concat "," (map decimal ps).

Definition crop_row (name : string) : row := [("product_name", VText name)].

Definition raw_row (r : string * Z) : row :=
  [("state", VText (fst r)); ("price", VNum (snd r))].

Definition aggregate_row (g : group) : row :=
  [ ("state", VText (g_state g));
    ("min_price", VNum (g_min g));
    ("max_price", VNum (g_max g));
    ("price_count", VNum (g_count g));
    ("all_prices", VText (group_concat (g_prices g))) ].

(** Binding more values than the statement has [?] is an error
    (SQLITE_RANGE); binding fewer leaves the [?] NULL. *)
Definition bind (holes : nat) (params : list string)
    : string + option string :=
  if (holes <? length params)%nat
  then inl "SQLITE_RANGE: column index out of range"
  else inr (head params).

Definition run (t : tables) (sql : statement) (params : list string)
    : string + list row :=
  match sql with
  | distinctCropsQuery =>
      match bind 0 params with
      | inl err => inl err
      | inr _ => inr (map crop_row (distinct [] (map product_name (store_product t))))
      end
  | debugQuery =>
      match bind 1 params with
      | inl err => inl err
      | inr crop => inr (map raw_row (order_raw (joined t crop)))
      end
  | aggregateQuery =>
      match bind 1 params with
      | inl err => inl err
      | inr crop => inr (map aggregate_row (group_by_state (joined t crop)))
      end
  end.

(** A database file: its tables, and the failures the engine reports when
    a statement is run or the handle is closed (I/O error, missing table,
    locked file, ...). *)
Record db_file := {
  contents : tables;
  fault : statement -> option string;
  close_fault : option string
}.

Definition sqlite3_Database (f : db_file) : Database :=
  {| all := fun sql params =>
       match fault f sql with
       | Some msg => inl msg
       | None => run (contents f) sql params
       end;
     close := close_fault f |}.

Definition healthy (t : tables) : db_file :=
  {| contents := t; fault := fun _ => None; close_fault := None |}.

Definition GET (params : list (string * string)) : request :=
  {| query := list_to_map params |}.

(** The scenario of spec section 8. *)
Definition wheat_tables : tables :=
  {| store_product :=
       [ {| product_name := "wheat"; price := 10; farmerID := 1 |};
         {| product_name := "wheat"; price := 20; farmerID := 2 |};
         {| product_name := "wheat"; price := 15; farmerID := 3 |} ];
     app_userprofile :=
       list_to_map [ (1, "North"); (2, "North"); (3, "South") ] |}.

(** A store with a listing whose product name is the empty string. *)
Definition blank_tables : tables :=
  {| store_product := [ {| product_name := ""; price := 5; farmerID := 1 |} ];
     app_userprofile := list_to_map [ (1, "North") ] |}.

(** A database file on which one statement fails. *)
Definition failing (sql : statement) (t : tables) : db_file :=
  {| contents := t;
     fault := fun q => if bool_decide (q = sql)
                       then Some "SQLITE_IOERR: disk I/O error" else None;
     close_fault := None |}.

(** A handle that answers the debug statement with no rows and is otherwise
    the given one. *)
Definition silent_debug (db : Database) : Database :=
  {| all := fun sql params =>
       match sql with
       | debugQuery => inr []
       | _ => all db sql params
       end;
     close := close db |}.

(** The table of the scenario with its rows in another order. *)
Definition wheat_listings (listings : list listing) : tables :=
  {| store_product := listings; app_userprofile := app_userprofile wheat_tables |}.

(** What the dashboard sends for one aggregate row, and for one group. *)
Definition dashboard_entry (r : row) : json :=
  json_object [ ("state", get r "state");
                ("min_price", get r "min_price");
                ("max_price", get r "max_price");
                ("price_count", get r "price_count") ].

Definition group_entry (g : group) : json :=
  JObj [ ("state", JStr (g_state g));
         ("min_price", JNum (g_min g));
         ("max_price", JNum (g_max g));
         ("price_count", JNum (g_count g)) ].

(** The listings of a crop whose seller lives in a region, and the regions
    that have one. *)
Definition region_listings (t : tables) (crop region : string) : list listing :=
  filter (fun sp => product_name sp = crop /\
                    app_userprofile t !! farmerID sp = Some region)
         (store_product t).

Definition crop_regions (t : tables) (crop : string) : gset string :=
  list_to_set
    (omap (fun sp => if bool_decide (product_name sp = crop)
                     then app_userprofile t !! farmerID sp else None)
          (store_product t)).

(** Ascending order of region names, byte by byte. *)
Definition state_lt (a b : string) : Prop := String.compare a b = Lt.

(** The prices of the joined rows of one state, in scan order. *)
Definition prices_of (rs : list (string * Z)) (state : string) : list Z :=
  map snd (filter (fun r => fst r = state) rs).

(** An accumulator sums up the rows of its state. *)
Record summary (rs : list (string * Z)) (g : group) : Prop := {
  sum_prices : g_prices g = prices_of rs (g_state g);
  sum_count : g_count g = Z.of_nat (length (g_prices g));
  sum_min : g_min g ∈ g_prices g;
  sum_max : g_max g ∈ g_prices g;
  sum_bounds : forall p, p ∈ g_prices g -> g_min g <= p <= g_max g
}.

(** The accumulators after the rows [rs]: ascending, one per state met. *)
Definition grouped (rs : list (string * Z)) (gs : list group) : Prop :=
  StronglySorted state_lt (map g_state gs) /\
  (forall g, g ∈ gs -> summary rs g) /\
  (forall s, s ∈ map g_state gs <-> s ∈ map fst rs).

(** Two outcomes of [db.all] that differ at most in the error message. *)
Definition same_outcome (a b : string + list row) : Prop :=
  match a, b with
  | inl _, inl _ => True
  | inr rows, inr rows' => rows = rows'
  | _, _ => False
  end.

(** A handle on which every call fails with the given message. *)
Definition broken (msg : string) : Database :=
  {| all := fun _ _ => inl msg; close := Some msg |}.

(** The same database file with another content of [store_product]. *)
Definition restock (f : db_file) (listings : list listing) : db_file :=
  {| contents := {| store_product := listings;
                    app_userprofile := app_userprofile (contents f) |};
     fault := fault f;
     close_fault := close_fault f |}.

(** The listings of a crop that have a seller profile. *)
Definition sold_listings (t : tables) (crop : string) : list listing :=
  filter (fun sp => product_name sp = crop /\
                    is_Some (app_userprofile t !! farmerID sp))
         (store_product t).

(** The sum of the [price_count] column. *)
Definition total_count (gs : list group) : Z :=
  fold_right (fun g n => g_count g + n) 0 gs.

(** The columns the dashboard copies into its answer. *)
Definition dashboard_fields : list string :=
  ["state"; "min_price"; "max_price"; "price_count"].

(** A handle whose aggregate rows lack columns and carry others. *)
Definition sparse : Database :=
  {| all := fun sql _ =>
       match sql with
       | aggregateQuery =>
           inr [ [("state", VText "North"); ("all_prices", VText "10");
                  ("farmerID", VNum 7)] ]
       | _ => inr []
       end;
     close := None |}.

Import routeHandlers.

(** * Handler runs, for any database handle *)

Section Handlers.

Variable db : Database.
Variable req : request.

Lemma responses_app (tr1 tr2 : list event) :
  responses (tr1 ++ tr2) = responses tr1 ++ responses tr2.
Proof.
  induction tr1 as [|e tr1 IH]; simpl; [reflexivity|].
  destruct e; simpl; rewrite IH; reflexivity.
Qed.

Lemma queries_app (tr1 tr2 : list event) :
  queries (tr1 ++ tr2) = queries tr1 ++ queries tr2.
Proof.
  induction tr1 as [|e tr1 IH]; simpl; [reflexivity|].
  destruct e; simpl; rewrite IH; reflexivity.
Qed.

(** The equal-prices warnings are console lines only. *)
Lemma warnings_silent (rows : list row) (warn : row -> string * list console_arg)
    (test : row -> bool) :
  let tr := flat_map (fun r => if test r
                               then [Console Warn (fst (warn r)) (snd (warn r))]
                               else []) rows in
  responses tr = [] /\ queries tr = [].
Proof.
  induction rows as [|r rows [IH1 IH2]]; simpl; [split; reflexivity|].
  destruct (test r); simpl; split; assumption.
Qed.

Lemma getCrops_responses :
  responses (getCrops db req) =
    match all db distinctCropsQuery [] with
    | inl _ => [(500, error_body "Error fetching crops")]
    | inr rows =>
        [(200, JObj [("crops",
                      JArr (map (fun r => json_item (get r "product_name")) rows))])]
    end.
Proof.
  unfold getCrops, db_all; simpl.
  destruct (all db distinctCropsQuery []); reflexivity.
Qed.

Lemma getDashboard_no_crop :
  query req !! "crop" = None \/ query req !! "crop" = Some "" ->
  getDashboard db req = [Respond 400 (error_body "Crop name is required")].
Proof.
  unfold getDashboard. intros [-> | ->]; reflexivity.
Qed.

Section WithCrop.

Variable crop : string.
Hypothesis Hcrop : query req !! "crop" = Some crop.
Hypothesis Hnonempty : crop <> "".

Lemma getDashboard_responses :
  responses (getDashboard db req) =
    match all db debugQuery [crop] with
    | inl _ => [(500, error_body "Database error")]
    | inr _ =>
        match all db aggregateQuery [crop] with
        | inl _ => [(500, error_body "Error fetching dashboard data")]
        | inr rows => [(200, JArr (map dashboard_entry rows))]
        end
    end.
Proof.
  unfold getDashboard, db_all. rewrite Hcrop.
  destruct crop as [|c crop']; [congruence|].
  destruct (all db debugQuery _) as [err|raw]; [reflexivity|].
  destruct (all db aggregateQuery _) as [err|rows]; [reflexivity|].
  cbn [responses]. rewrite responses_app.
  pose proof (warnings_silent rows
    (fun r => ("Warning: Min and Max prices are equal for "
                 +:+ interpolate (get r "state") +:+ ":",
               [AValue (get r "all_prices")]))
    (fun r => strict_eq (get r "min_price") (get r "max_price"))) as [Hw _].
  cbn zeta in Hw. cbn [fst snd] in Hw. rewrite Hw. reflexivity.
Qed.

Lemma getDashboard_queries :
  queries (getDashboard db req) =
    match all db debugQuery [crop] with
    | inl _ => [(debugQuery, [crop])]
    | inr _ => [(debugQuery, [crop]); (aggregateQuery, [crop])]
    end.
Proof.
  unfold getDashboard, db_all. rewrite Hcrop.
  destruct crop as [|c crop']; [congruence|].
  destruct (all db debugQuery _) as [err|raw]; [reflexivity|].
  destruct (all db aggregateQuery _) as [err|rows]; [reflexivity|].
  cbn [queries]. rewrite queries_app.
  pose proof (warnings_silent rows
    (fun r => ("Warning: Min and Max prices are equal for "
                 +:+ interpolate (get r "state") +:+ ":",
               [AValue (get r "all_prices")]))
    (fun r => strict_eq (get r "min_price") (get r "max_price"))) as [_ Hw].
  cbn zeta in Hw. cbn [fst snd] in Hw. rewrite Hw. reflexivity.
Qed.

(** Every aggregate row with equal prices is reported on the console. *)
Lemma getDashboard_warns (raw rows : list row) (r : row) :
  all db debugQuery [crop] = inr raw ->
  all db aggregateQuery [crop] = inr rows ->
  r ∈ rows ->
  strict_eq (get r "min_price") (get r "max_price") = true ->
  (Warn,
   "Warning: Min and Max prices are equal for " +:+ interpolate (get r "state") +:+ ":",
   [AValue (get r "all_prices")]) ∈ console (getDashboard db req).
Proof.
  intros Hraw Hrows Hr Heq.
  unfold getDashboard, db_all. rewrite Hcrop.
  destruct crop as [|c crop']; [congruence|].
  rewrite Hraw, Hrows. cbn [console]. do 2 right.
  clear Hrows.
  match goal with |- _ ∈ console (_ ++ ?t) => generalize t end. intros rest.
  induction rows as [|r' rows' IH]; [inversion Hr|].
  apply elem_of_cons in Hr as [<- | Hr]; cbn [flat_map].
  - rewrite Heq. left.
  - destruct (strict_eq (get r' "min_price") (get r' "max_price"));
      [right|]; apply IH, Hr.
Qed.

End WithCrop.

End Handlers.

(** * The statements on the tables *)

Section Distinct.

Lemma distinct_elem (seen names : list string) (n : string) :
  n ∈ distinct seen names <-> n ∈ names /\ n ∉ seen.
Proof.
  revert seen. induction names as [|m names IH]; intros seen; simpl.
  - split; [intros H; inversion H | intros [H _]; inversion H].
  - case_bool_decide as Hm.
    + rewrite IH, elem_of_cons. split; [tauto|].
      intros [[-> | H] Hn]; [contradiction | tauto].
    + rewrite !elem_of_cons, IH, elem_of_cons.
      destruct (decide (n = m)) as [-> | Hne]; [tauto|]. tauto.
Qed.

Lemma distinct_NoDup (seen names : list string) : NoDup (distinct seen names).
Proof.
  revert seen. induction names as [|m names IH]; intros seen; simpl.
  - constructor.
  - case_bool_decide as Hm; [apply IH|].
    apply NoDup_cons. split; [|apply IH].
    rewrite distinct_elem, elem_of_cons. tauto.
Qed.

End Distinct.

Section Joined.

Variable t : tables.

Lemma joined_absent (crop : string) :
  (forall sp, sp ∈ store_product t -> product_name sp <> crop) ->
  joined t (Some crop) = [].
Proof.
  unfold joined. induction (store_product t) as [|sp l IH]; intros H; simpl.
  - reflexivity.
  - rewrite IH by (intros sp' Hsp'; apply H; right; exact Hsp').
    destruct (app_userprofile t !! farmerID sp); [|reflexivity].
    case_bool_decide as Heq; [|reflexivity].
    exfalso. apply (H sp); [left | congruence].
Qed.

(** The joined rows of a region are, one for one, the listings of the crop
    sold from that region. *)
Lemma joined_region (crop region : string) :
  prices_of (joined t (Some crop)) region =
  map price (region_listings t crop region).
Proof.
  unfold prices_of, joined, region_listings.
  induction (store_product t) as [|sp l IH]; simpl; [reflexivity|].
  rewrite filter_app, map_app, IH, filter_cons.
  destruct (app_userprofile t !! farmerID sp) as [state|] eqn:Hup.
  - case_bool_decide as Hname.
    + rewrite filter_cons, filter_nil. simpl.
      destruct (decide (state = region)) as [-> | Hne].
      * rewrite decide_True by (split; congruence). reflexivity.
      * rewrite decide_False by (intros [_ H]; congruence). reflexivity.
    + rewrite filter_nil, decide_False by (intros [H _]; congruence). reflexivity.
  - rewrite filter_nil, decide_False by (intros [_ H]; congruence). reflexivity.
Qed.

Lemma joined_states (crop : string) :
  list_to_set (map fst (joined t (Some crop))) = crop_regions t crop.
Proof.
  unfold joined, crop_regions.
  induction (store_product t) as [|sp l IH]; simpl; [reflexivity|].
  rewrite map_app, list_to_set_app_L, IH. clear IH.
  set (rest := omap _ l).
  destruct (app_userprofile t !! farmerID sp) as [state|] eqn:Hup.
  - case_bool_decide as Hname; case_bool_decide as Hname'; try congruence;
      simpl; fold rest;
      rewrite ?list_to_set_cons, ?list_to_set_nil,
              ?(right_id_L ∅ (∪)), ?(left_id_L ∅ (∪)); reflexivity.
  - case_bool_decide as Hname; simpl; fold rest;
      rewrite ?Hup, ?(left_id_L ∅ (∪)); reflexivity.
Qed.

End Joined.

Section Groups.

Lemma state_lt_trans (a b c : string) : state_lt a b -> state_lt b c -> state_lt a c.
Proof.
  unfold state_lt. intros Hab Hbc.
  apply String_as_OT.cmp_lt. apply String_as_OT.cmp_lt in Hab, Hbc.
  exact (String_as_OT.lt_trans _ _ _ Hab Hbc).
Qed.

Lemma state_lt_irrefl (a : string) : ~ state_lt a a.
Proof.
  unfold state_lt. intros H.
  assert (String.compare a a = Eq) as Heq by (apply String_as_OT.cmp_eq; reflexivity).
  congruence.
Qed.

Lemma compare_Gt (a b : string) : String.compare a b = Gt -> state_lt b a.
Proof.
  unfold state_lt. intros H. rewrite String.compare_antisym, H. reflexivity.
Qed.

Lemma ascending_NoDup (l : list string) : StronglySorted state_lt l -> NoDup l.
Proof.
  induction 1 as [|a l Hs IH Hall]; [constructor|].
  apply NoDup_cons. split; [|exact IH].
  intros Hin. rewrite Forall_forall in Hall.
  exact (state_lt_irrefl a (Hall a Hin)).
Qed.

Lemma group_insert_states (s : string) (p : Z) (gs : list group) (x : string) :
  x ∈ map g_state (group_insert s p gs) <-> x = s \/ x ∈ map g_state gs.
Proof.
  induction gs as [|g gs IH]; simpl.
  - rewrite list_elem_of_singleton, elem_of_nil. tauto.
  - destruct (String.compare s (g_state g)) eqn:Hc; simpl.
    + apply String.compare_eq_iff in Hc. subst s.
      rewrite !elem_of_cons. tauto.
    + rewrite !elem_of_cons. tauto.
    + rewrite !elem_of_cons, IH. tauto.
Qed.

Lemma group_insert_ascending (s : string) (p : Z) (gs : list group) :
  StronglySorted state_lt (map g_state gs) ->
  StronglySorted state_lt (map g_state (group_insert s p gs)).
Proof.
  induction gs as [|g gs IH]; simpl; intros Hs.
  - repeat constructor.
  - apply StronglySorted_inv in Hs as [Hs Hall].
    destruct (String.compare s (g_state g)) eqn:Hc; simpl.
    + constructor; assumption.
    + constructor; [constructor; assumption|].
      constructor; [exact Hc|].
      eapply Forall_impl; [exact Hall|].
      intros y Hy. exact (state_lt_trans _ _ _ Hc Hy).
    + constructor; [apply IH, Hs|].
      apply Forall_forall. intros y Hy.
      apply group_insert_states in Hy as [-> | Hy].
      * apply compare_Gt, Hc.
      * rewrite Forall_forall in Hall. apply Hall, Hy.
Qed.

(** Where an accumulator of the new list comes from. *)
Lemma group_insert_elem (s : string) (p : Z) (gs : list group) (g' : group) :
  StronglySorted state_lt (map g_state gs) ->
  g' ∈ group_insert s p gs ->
  (g' ∈ gs /\ g_state g' <> s) \/
  (exists g, g ∈ gs /\ g_state g = s /\ g' = group_step g p) \/
  (g' = group_start s p /\ s ∉ map g_state gs).
Proof.
  induction gs as [|g gs IH]; simpl; intros Hs Hin.
  - apply list_elem_of_singleton in Hin. right; right. split; [exact Hin|].
    apply not_elem_of_nil.
  - apply StronglySorted_inv in Hs as [Hs Hall]. rewrite Forall_forall in Hall.
    assert (forall h, h ∈ gs -> state_lt (g_state g) (g_state h)) as Hlater.
    { intros h Hh. apply Hall. apply list_elem_of_fmap. exists h. split; [reflexivity|exact Hh]. }
    destruct (String.compare s (g_state g)) eqn:Hc.
    + apply String.compare_eq_iff in Hc. subst s.
      apply elem_of_cons in Hin as [-> | Hin].
      * right; left. exists g. split; [left|]. split; reflexivity.
      * left. split; [right; exact Hin|].
        intros Heq. apply (state_lt_irrefl (g_state g)).
        rewrite <- Heq at 2. apply Hlater, Hin.
    + assert (forall h, h ∈ g :: gs -> state_lt s (g_state h)) as Hall'.
      { intros h [-> | Hh]%elem_of_cons; [exact Hc|].
        exact (state_lt_trans _ _ _ Hc (Hlater h Hh)). }
      apply elem_of_cons in Hin as [-> | Hin].
      * right; right. split; [reflexivity|].
        change (s ∉ map g_state (g :: gs)).
        intros (h & Heq & Hh)%list_elem_of_fmap.
        apply (state_lt_irrefl s). rewrite Heq at 2. apply Hall', Hh.
      * left. split; [exact Hin|].
        intros Heq. apply (state_lt_irrefl s). rewrite <- Heq at 2. apply Hall', Hin.
    + apply compare_Gt in Hc.
      apply elem_of_cons in Hin as [-> | Hin].
      * left. split; [left|].
        intros Heq. apply (state_lt_irrefl s). rewrite <- Heq at 1. exact Hc.
      * destruct (IH Hs Hin) as [[Hg Hne] | [(h & Hh & Heq & ->) | [-> Hnot]]].
        -- left. split; [right; exact Hg | exact Hne].
        -- right; left. exists h. split; [right; exact Hh|]. split; [exact Heq | reflexivity].
        -- right; right. split; [reflexivity|].
           intros [Heq | Hx]%elem_of_cons; [|exact (Hnot Hx)].
           apply (state_lt_irrefl s). rewrite Heq at 1. exact Hc.
Qed.

Lemma prices_of_snoc (rs : list (string * Z)) (s : string) (p : Z) (state : string) :
  prices_of (rs ++ [(s, p)]) state =
  prices_of rs state ++ (if decide (s = state) then [p] else []).
Proof.
  unfold prices_of. rewrite filter_app, map_app, filter_cons, filter_nil. simpl.
  destruct (decide (s = state)); reflexivity.
Qed.

Lemma prices_of_absent (rs : list (string * Z)) (state : string) :
  state ∉ map fst rs -> prices_of rs state = [].
Proof.
  unfold prices_of. induction rs as [|r rs IH]; simpl; intros Hnot; [reflexivity|].
  apply not_elem_of_cons in Hnot as [Hne Hnot].
  rewrite filter_cons, decide_False by congruence. apply IH, Hnot.
Qed.

Lemma prices_of_present (rs : list (string * Z)) (state : string) :
  state ∈ map fst rs <-> prices_of rs state <> [].
Proof.
  split.
  - unfold prices_of. induction rs as [|r rs IH]; simpl; intros Hin.
    + inversion Hin.
    + rewrite filter_cons. destruct (decide (fst r = state)) as [Heq | Hne]; [discriminate|].
      apply elem_of_cons in Hin as [Heq | Hin]; [congruence | apply IH, Hin].
  - intros Hne. destruct (decide (state ∈ map fst rs)) as [Hin | Hnot]; [exact Hin|].
    exfalso. apply Hne, prices_of_absent, Hnot.
Qed.

Lemma summary_start (rs : list (string * Z)) (s : string) (p : Z) :
  s ∉ map fst rs -> summary (rs ++ [(s, p)]) (group_start s p).
Proof.
  intros Hnot. constructor; simpl.
  - rewrite prices_of_snoc, prices_of_absent, decide_True by done. reflexivity.
  - reflexivity.
  - left.
  - left.
  - intros q ->%list_elem_of_singleton. lia.
Qed.

Lemma summary_step (rs : list (string * Z)) (g : group) (p : Z) :
  summary rs g -> summary (rs ++ [(g_state g, p)]) (group_step g p).
Proof.
  intros [Hp Hc Hmin Hmax Hb]. constructor; simpl.
  - rewrite prices_of_snoc, decide_True, Hp by done. reflexivity.
  - rewrite length_app, Hc. simpl. lia.
  - apply elem_of_app.
    destruct (Z.min_spec (g_min g) p) as [[_ ->] | [_ ->]];
      [left; exact Hmin | right; left].
  - apply elem_of_app.
    destruct (Z.max_spec (g_max g) p) as [[_ ->] | [_ ->]];
      [right; left | left; exact Hmax].
  - intros q [Hq | ->%list_elem_of_singleton]%elem_of_app.
    + specialize (Hb q Hq). lia.
    + lia.
Qed.

Lemma summary_other (rs : list (string * Z)) (g : group) (s : string) (p : Z) :
  g_state g <> s -> summary rs g -> summary (rs ++ [(s, p)]) g.
Proof.
  intros Hne [Hp Hc Hmin Hmax Hb]. constructor; try assumption.
  rewrite prices_of_snoc, decide_False, app_nil_r by congruence. exact Hp.
Qed.

Lemma grouped_nil : grouped [] [].
Proof.
  split; [constructor|]. split; [intros g Hg; inversion Hg | reflexivity].
Qed.

Lemma grouped_insert (rs : list (string * Z)) (gs : list group) (s : string) (p : Z) :
  grouped rs gs -> grouped (rs ++ [(s, p)]) (group_insert s p gs).
Proof.
  intros (Hs & Hsum & Hstates). split; [|split].
  - apply group_insert_ascending, Hs.
  - intros g' Hin.
    destruct (group_insert_elem s p gs g' Hs Hin)
      as [[Hg Hne] | [(g & Hg & <- & ->) | [-> Hnot]]].
    + apply summary_other; [exact Hne | apply Hsum, Hg].
    + apply summary_step, Hsum, Hg.
    + apply summary_start. rewrite <- Hstates. exact Hnot.
  - intros x. rewrite group_insert_states, Hstates, map_app, elem_of_app.
    simpl. rewrite list_elem_of_singleton. tauto.
Qed.

Theorem group_by_state_grouped (rs : list (string * Z)) :
  grouped rs (group_by_state rs).
Proof.
  unfold group_by_state.
  induction rs as [|[s p] rs IH] using rev_ind.
  - apply grouped_nil.
  - rewrite fold_left_app. simpl. apply grouped_insert, IH.
Qed.

End Groups.

(** * The statements behind the handlers *)

Section Store.

Variable f : db_file.
Variable req : request.

Lemma getCrops_success :
  fault f distinctCropsQuery = None ->
  responses (getCrops (sqlite3_Database f) req) =
    [(200, JObj [("crops",
                  JArr (map JStr (distinct [] (map product_name
                                                   (store_product (contents f))))))])].
Proof.
  intros Hok. rewrite getCrops_responses. simpl. rewrite Hok. simpl.
  rewrite map_map. reflexivity.
Qed.

Lemma getDashboard_success (crop : string) :
  query req !! "crop" = Some crop -> crop <> "" ->
  fault f debugQuery = None -> fault f aggregateQuery = None ->
  responses (getDashboard (sqlite3_Database f) req) =
    [(200, JArr (map group_entry (group_by_state (joined (contents f) (Some crop)))))].
Proof.
  intros Hcrop Hne Hdebug Hagg.
  rewrite (getDashboard_responses _ _ crop Hcrop Hne). simpl.
  rewrite Hdebug, Hagg. simpl. rewrite map_map. reflexivity.
Qed.

Lemma getDashboard_equal_prices (crop : string) (g : group) :
  query req !! "crop" = Some crop -> crop <> "" ->
  fault f debugQuery = None -> fault f aggregateQuery = None ->
  g ∈ group_by_state (joined (contents f) (Some crop)) ->
  g_min g = g_max g ->
  (Warn,
   "Warning: Min and Max prices are equal for " +:+ g_state g +:+ ":",
   [AValue (Some (VText (group_concat (g_prices g))))])
    ∈ console (getDashboard (sqlite3_Database f) req).
Proof.
  intros Hcrop Hne Hdebug Hagg Hg Heq.
  apply (getDashboard_warns (sqlite3_Database f) req crop Hcrop Hne
           (map raw_row (order_raw (joined (contents f) (Some crop))))
           (map aggregate_row (group_by_state (joined (contents f) (Some crop))))
           (aggregate_row g)).
  - simpl. rewrite Hdebug. reflexivity.
  - simpl. rewrite Hagg. reflexivity.
  - apply list_elem_of_fmap. exists g. split; [reflexivity | exact Hg].
  - simpl. rewrite Heq. apply bool_decide_eq_true. reflexivity.
Qed.

Lemma crop_regions_listings (crop region : string) :
  region ∈ crop_regions (contents f) crop <->
  region_listings (contents f) crop region <> [].
Proof.
  rewrite <- joined_states, elem_of_list_to_set, prices_of_present, joined_region.
  split; intros H Hnil.
  - apply H. rewrite Hnil. reflexivity.
  - apply H. destruct (region_listings _ _ _); [reflexivity | discriminate].
Qed.


End Store.

(** * Properties of the endpoints *)

(** C1 (as amended): for every non-empty crop name, when both statements
    succeed, GET /dashboard?crop=X answers 200 with one entry per region
    that has a listing of the crop: as many entries as regions, no region
    twice, in ascending order of region name, each with [price_count] the
    number of listings of the crop in its region and [min_price <= max_price]. *)
Theorem dashboard_per_region (f : db_file) (req : request) (crop : string) :
  query req !! "crop" = Some crop ->
  crop <> "" ->
  fault f debugQuery = None ->
  fault f aggregateQuery = None ->
  exists gs : list group,
    responses (getDashboard (sqlite3_Database f) req)
      = [(200, JArr (map group_entry gs))] /\
    length gs = size (crop_regions (contents f) crop) /\
    NoDup (map g_state gs) /\
    (forall region, region ∈ map g_state gs <-> region ∈ crop_regions (contents f) crop) /\
    StronglySorted state_lt (map g_state gs) /\
    Forall (fun g =>
              g_count g
                = Z.of_nat (length (region_listings (contents f) crop (g_state g))) /\
              g_min g <= g_max g) gs.
Proof.
  intros Hcrop Hne Hdebug Hagg.
  set (rs := joined (contents f) (Some crop)).
  exists (group_by_state rs).
  destruct (group_by_state_grouped rs) as (Hs & Hsum & Hstates).
  pose proof (ascending_NoDup _ Hs) as Hnodup.
  assert (forall region, region ∈ map g_state (group_by_state rs)
                         <-> region ∈ crop_regions (contents f) crop) as Hregions.
  { intros region. rewrite Hstates, <- joined_states, elem_of_list_to_set. reflexivity. }
  split; [exact (getDashboard_success f req crop Hcrop Hne Hdebug Hagg)|].
  split.
  { rewrite <- (length_map g_state), <- (size_list_to_set (C:=gset string)) by exact Hnodup.
    f_equal. apply set_eq. intros region.
    rewrite elem_of_list_to_set. apply Hregions. }
  split; [exact Hnodup|]. split; [exact Hregions|]. split; [exact Hs|].
  apply Forall_forall. intros g Hg.
  destruct (Hsum g Hg) as [Hp Hc Hmin _ Hb]. split.
  - rewrite Hc, Hp. unfold rs. rewrite joined_region, length_map. reflexivity.
  - destruct (Hb _ Hmin) as [_ H]. exact H.
Qed.

Lemma dashboard_per_region_witness :
  exists gs : list group,
    responses (getDashboard (sqlite3_Database (healthy wheat_tables))
                 (GET [("crop", "wheat")]))
      = [(200, JArr (map group_entry gs))] /\
    length gs = size (crop_regions wheat_tables "wheat") /\
    NoDup (map g_state gs) /\
    (forall region, region ∈ map g_state gs <-> region ∈ crop_regions wheat_tables "wheat") /\
    StronglySorted state_lt (map g_state gs) /\
    Forall (fun g =>
              g_count g
                = Z.of_nat (length (region_listings wheat_tables "wheat" (g_state g))) /\
              g_min g <= g_max g) gs.
Proof.
  apply (dashboard_per_region (healthy wheat_tables) (GET [("crop", "wheat")]) "wheat").
  - vm_compute. reflexivity.
  - discriminate.
  - reflexivity.
  - reflexivity.
Defined.

(** C1 as stated fails for a crop name that is the empty string: it is
    present in the listings, in one region, and the request is refused. *)
Lemma dashboard_blank_crop_refused :
  (exists sp, sp ∈ store_product blank_tables /\ product_name sp = "") /\
  size (crop_regions blank_tables "") = 1%nat /\
  query (GET [("crop", "")]) !! "crop" = Some "" /\
  ~ exists gs : list group,
      responses (getDashboard (sqlite3_Database (healthy blank_tables))
                   (GET [("crop", "")]))
        = [(200, JArr (map group_entry gs))] /\
      length gs = size (crop_regions blank_tables "").
Proof.
  split; [eexists; split; [left | reflexivity]|].
  split; [vm_compute; reflexivity|].
  split; [vm_compute; reflexivity|].
  intros (gs & Hresp & _).
  rewrite getDashboard_no_crop in Hresp by (right; vm_compute; reflexivity).
  discriminate Hresp.
Qed.

(** C2: on the store whose listings are (wheat, 10, seller in North),
    (wheat, 20, another seller in North), (wheat, 15, seller in South), in
    any order, GET /dashboard?crop=wheat answers with the North entry
    (10, 20, 2) followed by the South entry (15, 15, 1). *)
Theorem dashboard_wheat_scenario (listings : list listing) :
  listings ≡ₚ store_product wheat_tables ->
  responses (getDashboard (sqlite3_Database (healthy (wheat_listings listings)))
               (GET [("crop", "wheat")]))
  = [(200,
      JArr [ JObj [ ("state", JStr "North"); ("min_price", JNum 10);
                    ("max_price", JNum 20); ("price_count", JNum 2) ];
             JObj [ ("state", JStr "South"); ("min_price", JNum 15);
                    ("max_price", JNum 15); ("price_count", JNum 1) ] ])].
Proof.
  intros Hperm.
  pose proof (Permutation_length Hperm) as Hlen.
  assert (NoDup listings) as Hnodup.
  { rewrite Hperm. simpl. repeat (apply NoDup_cons; split);
      [ | | | apply NoDup_nil_2];
      rewrite ?elem_of_cons, ?elem_of_nil; intuition congruence. }
  assert (forall sp, sp ∈ listings -> sp ∈ store_product wheat_tables) as Hin.
  { intros sp Hsp. rewrite <- Hperm. exact Hsp. }
  destruct listings as [|x [|y [|z [|? ?]]]]; try discriminate Hlen.
  pose proof (Hin x ltac:(left)) as Hx.
  pose proof (Hin y ltac:(right; left)) as Hy.
  pose proof (Hin z ltac:(right; right; left)) as Hz.
  simpl in Hx, Hy, Hz.
  apply NoDup_cons in Hnodup as [Hxy Hnodup].
  apply NoDup_cons in Hnodup as [Hyz _].
  apply not_elem_of_cons in Hxy as [Hxy [Hxz _]%not_elem_of_cons].
  apply not_elem_of_cons in Hyz as [Hyz _].
  rewrite !elem_of_cons in Hx. rewrite !elem_of_cons in Hy. rewrite !elem_of_cons in Hz.
  destruct Hx as [-> | [-> | [-> | Hx]]]; [ | | | inversion Hx];
    (destruct Hy as [-> | [-> | [-> | Hy]]]; [ | | | inversion Hy]);
    (destruct Hz as [-> | [-> | [-> | Hz]]]; [ | | | inversion Hz]);
    try congruence; vm_compute; reflexivity.
Qed.

Lemma dashboard_wheat_scenario_witness :
  responses (getDashboard
               (sqlite3_Database (healthy (wheat_listings (store_product wheat_tables))))
               (GET [("crop", "wheat")]))
  = [(200,
      JArr [ JObj [ ("state", JStr "North"); ("min_price", JNum 10);
                    ("max_price", JNum 20); ("price_count", JNum 2) ];
             JObj [ ("state", JStr "South"); ("min_price", JNum 15);
                    ("max_price", JNum 15); ("price_count", JNum 1) ] ])].
Proof.
  apply (dashboard_wheat_scenario (store_product wheat_tables)).
  reflexivity.
Defined.

(** C3: when the crop parameter is absent or the empty string, the handler
    answers 400 with the body {"error": "Crop name is required"} and sends
    no statement to the store. *)
Theorem dashboard_crop_required (db : Database) (req : request) :
  query req !! "crop" = None \/ query req !! "crop" = Some "" ->
  responses (getDashboard db req) = [(400, JObj [("error", JStr "Crop name is required")])] /\
  queries (getDashboard db req) = [].
Proof.
  intros H. rewrite (getDashboard_no_crop db req H). split; reflexivity.
Qed.

Lemma dashboard_crop_required_witness :
  responses (getDashboard (sqlite3_Database (healthy wheat_tables)) (GET []))
    = [(400, JObj [("error", JStr "Crop name is required")])] /\
  queries (getDashboard (sqlite3_Database (healthy wheat_tables)) (GET [])) = [].
Proof.
  apply (dashboard_crop_required (sqlite3_Database (healthy wheat_tables)) (GET [])).
  left. vm_compute. reflexivity.
Defined.

(** C4 (as amended): with a non-empty crop parameter, if a statement sent
    by the handler fails, the answer is 500; its body is
    {"error": "Database error"} when the debug statement failed and
    {"error": "Error fetching dashboard data"} when the aggregate statement
    failed. *)
Theorem dashboard_storage_failure (db : Database) (req : request) (crop : string) :
  query req !! "crop" = Some crop ->
  crop <> "" ->
  (exists sql params err,
      (sql, params) ∈ queries (getDashboard db req) /\ all db sql params = inl err) ->
  responses (getDashboard db req) =
    [(500, JObj [("error",
                  JStr (match all db debugQuery [crop] with
                        | inl _ => "Database error"
                        | inr _ => "Error fetching dashboard data"
                        end))])].
Proof.
  intros Hcrop Hne (sql & params & err & Hin & Herr).
  rewrite (getDashboard_responses db req crop Hcrop Hne).
  rewrite (getDashboard_queries db req crop Hcrop Hne) in Hin.
  destruct (all db debugQuery [crop]) as [e|raw] eqn:Hdebug; [reflexivity|].
  apply elem_of_cons in Hin as [Heq | Hin].
  - injection Heq as -> ->. congruence.
  - apply list_elem_of_singleton in Hin. injection Hin as -> ->.
    rewrite Herr. reflexivity.
Qed.

Lemma dashboard_storage_failure_witness :
  responses (getDashboard (sqlite3_Database (failing aggregateQuery wheat_tables))
               (GET [("crop", "wheat")]))
  = [(500, JObj [("error", JStr "Error fetching dashboard data")])].
Proof.
  apply (dashboard_storage_failure
           (sqlite3_Database (failing aggregateQuery wheat_tables))
           (GET [("crop", "wheat")]) "wheat").
  - vm_compute. reflexivity.
  - discriminate.
  - exists aggregateQuery, ["wheat"], "SQLITE_IOERR: disk I/O error".
    split; [vm_compute | reflexivity].
    right. left.
Defined.

(** C4 as stated fails when it is the debug statement that fails: the
    handler sent it, it failed, and the body is not the dashboard one. *)
Lemma dashboard_debug_failure_body :
  (debugQuery, ["wheat"])
    ∈ queries (getDashboard (sqlite3_Database (failing debugQuery wheat_tables))
                 (GET [("crop", "wheat")])) /\
  all (sqlite3_Database (failing debugQuery wheat_tables)) debugQuery ["wheat"]
    = inl "SQLITE_IOERR: disk I/O error" /\
  responses (getDashboard (sqlite3_Database (failing debugQuery wheat_tables))
               (GET [("crop", "wheat")]))
    = [(500, JObj [("error", JStr "Database error")])] /\
  responses (getDashboard (sqlite3_Database (failing debugQuery wheat_tables))
               (GET [("crop", "wheat")]))
    <> [(500, JObj [("error", JStr "Error fetching dashboard data")])].
Proof.
  split; [vm_compute; left|].
  split; [reflexivity|].
  split; [vm_compute; reflexivity|].
  vm_compute. discriminate.
Qed.

(** C5: with a non-empty crop parameter, if the debug statement fails the
    aggregate statement is never sent and the answer is a 500; if it
    succeeds, its rows play no part in the answer: two handles that return
    any rows for the debug statement and agree on the outcome of the
    aggregate statement get the same answer. *)
Theorem dashboard_debug_query_role (db db' : Database) (req : request) (crop : string) :
  query req !! "crop" = Some crop ->
  crop <> "" ->
  (forall err, all db debugQuery [crop] = inl err ->
     (forall params, (aggregateQuery, params) ∉ queries (getDashboard db req)) /\
     exists body, responses (getDashboard db req) = [(500, body)]) /\
  (forall raw raw',
     all db debugQuery [crop] = inr raw ->
     all db' debugQuery [crop] = inr raw' ->
     all db aggregateQuery [crop] = all db' aggregateQuery [crop] ->
     responses (getDashboard db req) = responses (getDashboard db' req)).
Proof.
  intros Hcrop Hne. split.
  - intros err Herr.
    rewrite (getDashboard_responses db req crop Hcrop Hne).
    rewrite (getDashboard_queries db req crop Hcrop Hne).
    rewrite Herr. split; [|eexists; reflexivity].
    intros params Hin. apply list_elem_of_singleton in Hin. discriminate Hin.
  - intros raw raw' Hraw Hraw' Hagg.
    rewrite (getDashboard_responses db req crop Hcrop Hne).
    rewrite (getDashboard_responses db' req crop Hcrop Hne).
    rewrite Hraw, Hraw', Hagg. reflexivity.
Qed.

Lemma dashboard_debug_query_role_witness :
  ((forall params,
      (aggregateQuery, params)
        ∉ queries (getDashboard (sqlite3_Database (failing debugQuery wheat_tables))
                     (GET [("crop", "wheat")]))) /\
   exists body,
     responses (getDashboard (sqlite3_Database (failing debugQuery wheat_tables))
                  (GET [("crop", "wheat")])) = [(500, body)]) /\
  responses (getDashboard (sqlite3_Database (healthy wheat_tables))
               (GET [("crop", "wheat")]))
    = responses (getDashboard (silent_debug (sqlite3_Database (healthy wheat_tables)))
                   (GET [("crop", "wheat")])).
Proof.
  split.
  - refine (proj1 (dashboard_debug_query_role
                     (sqlite3_Database (failing debugQuery wheat_tables))
                     (sqlite3_Database (healthy wheat_tables))
                     (GET [("crop", "wheat")]) "wheat" _ _)
                  "SQLITE_IOERR: disk I/O error" _).
    + vm_compute. reflexivity.
    + discriminate.
    + reflexivity.
  - refine (proj2 (dashboard_debug_query_role
                     (sqlite3_Database (healthy wheat_tables))
                     (silent_debug (sqlite3_Database (healthy wheat_tables)))
                     (GET [("crop", "wheat")]) "wheat" _ _)
                  (map raw_row (order_raw (joined wheat_tables (Some "wheat")))) [] _ _ _).
    + vm_compute. reflexivity.
    + discriminate.
    + reflexivity.
    + reflexivity.
    + reflexivity.
Defined.

(** C6: with a non-empty crop parameter that is the product name of no
    listing, and both statements succeeding, the answer is 200 with an empty
    list. *)
Theorem dashboard_unknown_crop (f : db_file) (req : request) (crop : string) :
  query req !! "crop" = Some crop ->
  crop <> "" ->
  (forall sp, sp ∈ store_product (contents f) -> product_name sp <> crop) ->
  fault f debugQuery = None ->
  fault f aggregateQuery = None ->
  responses (getDashboard (sqlite3_Database f) req) = [(200, JArr [])].
Proof.
  intros Hcrop Hne Habsent Hdebug Hagg.
  rewrite (getDashboard_success f req crop Hcrop Hne Hdebug Hagg).
  rewrite (joined_absent _ _ Habsent). reflexivity.
Qed.

Lemma dashboard_unknown_crop_witness :
  responses (getDashboard (sqlite3_Database (healthy wheat_tables))
               (GET [("crop", "nonexistent")]))
  = [(200, JArr [])].
Proof.
  apply (dashboard_unknown_crop (healthy wheat_tables)
           (GET [("crop", "nonexistent")]) "nonexistent").
  - vm_compute. reflexivity.
  - discriminate.
  - intros sp Hsp. simpl in Hsp.
    repeat (apply elem_of_cons in Hsp as [-> | Hsp]; [discriminate|]).
    inversion Hsp.
  - reflexivity.
  - reflexivity.
Defined.

(** C7: when the statement succeeds, GET /crops answers 200 with
    { crops: names } where [names] has no duplicate and holds exactly the
    product names that occur in the listings table. *)
Theorem crops_each_once (f : db_file) (req : request) :
  fault f distinctCropsQuery = None ->
  exists names : list string,
    responses (getCrops (sqlite3_Database f) req)
      = [(200, JObj [("crops", JArr (map JStr names))])] /\
    NoDup names /\
    (forall name, name ∈ names <->
                  exists sp, sp ∈ store_product (contents f) /\ product_name sp = name).
Proof.
  intros Hok.
  exists (distinct [] (map product_name (store_product (contents f)))).
  split; [exact (getCrops_success f req Hok)|].
  split; [apply distinct_NoDup|].
  intros name. rewrite distinct_elem, list_elem_of_fmap. split.
  - intros [(sp & -> & Hsp) _]. exists sp. split; [exact Hsp | reflexivity].
  - intros (sp & Hsp & <-). split; [|apply not_elem_of_nil].
    exists sp. split; [reflexivity | exact Hsp].
Qed.

Lemma crops_each_once_witness :
  exists names : list string,
    responses (getCrops (sqlite3_Database (healthy wheat_tables)) (GET []))
      = [(200, JObj [("crops", JArr (map JStr names))])] /\
    NoDup names /\
    (forall name, name ∈ names <->
                  exists sp, sp ∈ store_product wheat_tables /\ product_name sp = name).
Proof.
  apply (crops_each_once (healthy wheat_tables) (GET [])).
  reflexivity.
Defined.

(** C8: a successful dashboard answer is a 200 whose objects have exactly
    the fields state, min_price, max_price, price_count, in every store.  A
    region whose minimum and maximum are equal (as with a single listing) is
    reported by a console warning that carries all_prices; the answer is the
    same 200 of four-field objects, one per region. *)
Theorem dashboard_shape (f : db_file) (req : request) (crop : string) :
  query req !! "crop" = Some crop ->
  crop <> "" ->
  fault f debugQuery = None ->
  fault f aggregateQuery = None ->
  (exists objects : list (list (string * json)),
     responses (getDashboard (sqlite3_Database f) req)
       = [(200, JArr (map JObj objects))] /\
     length objects = length (group_by_state (joined (contents f) (Some crop))) /\
     Forall (fun fields =>
               map fst fields = ["state"; "min_price"; "max_price"; "price_count"])
            objects) /\
  (forall g, g ∈ group_by_state (joined (contents f) (Some crop)) ->
             g_min g = g_max g ->
             (Warn,
              "Warning: Min and Max prices are equal for " +:+ g_state g +:+ ":",
              [AValue (Some (VText (group_concat (g_prices g))))])
               ∈ console (getDashboard (sqlite3_Database f) req)).
Proof.
  intros Hcrop Hne Hdebug Hagg. split.
  - set (gs := group_by_state (joined (contents f) (Some crop))).
    exists (map (fun g => [ ("state", JStr (g_state g)); ("min_price", JNum (g_min g));
                            ("max_price", JNum (g_max g));
                            ("price_count", JNum (g_count g)) ]) gs).
    split; [|split].
    + rewrite (getDashboard_success f req crop Hcrop Hne Hdebug Hagg), map_map.
      reflexivity.
    + apply length_map.
    + apply Forall_forall. intros fields (g & -> & _)%list_elem_of_fmap. reflexivity.
  - intros g Hg Heq.
    exact (getDashboard_equal_prices f req crop g Hcrop Hne Hdebug Hagg Hg Heq).
Qed.

Lemma dashboard_shape_witness :
  (exists objects : list (list (string * json)),
     responses (getDashboard (sqlite3_Database (healthy wheat_tables))
                  (GET [("crop", "wheat")]))
       = [(200, JArr (map JObj objects))] /\
     length objects = length (group_by_state (joined wheat_tables (Some "wheat"))) /\
     Forall (fun fields =>
               map fst fields = ["state"; "min_price"; "max_price"; "price_count"])
            objects) /\
  (Warn, "Warning: Min and Max prices are equal for South:",
   [AValue (Some (VText "15"))])
    ∈ console (getDashboard (sqlite3_Database (healthy wheat_tables))
                 (GET [("crop", "wheat")])).
Proof.
  assert (query (GET [("crop", "wheat")]) !! "crop" = Some "wheat") as Hcrop
    by (vm_compute; reflexivity).
  assert ("wheat" <> "") as Hne by discriminate.
  destruct (dashboard_shape (healthy wheat_tables) (GET [("crop", "wheat")]) "wheat"
              Hcrop Hne eq_refl eq_refl) as [Hshape Hwarn].
  split; [exact Hshape|].
  apply (Hwarn {| g_state := "South"; g_min := 15; g_max := 15;
                  g_count := 1; g_prices := [15] |}).
  - vm_compute. right. left.
  - reflexivity.
Defined.

(** C9: on SIGINT the process closes the database handle, writes console
    lines, and exits with code 0, whether the close fails or not. *)
Theorem sigint_close_then_exit (db : Database) :
  exists lines : list event,
    deliver "SIGINT" (serverManager.setupShutdown db []) = Close :: lines ++ [Exit 0] /\
    Forall (fun e => exists lvl msg args, e = Console lvl msg args) lines.
Proof.
  unfold deliver, serverManager.setupShutdown, serverManager.on_SIGINT, db_close.
  simpl. destruct (close db) as [msg|]; simpl.
  - exists [ Console Error "Error closing database:" [AText msg];
             Console Log "Database connection closed" [] ].
    split; [reflexivity|]. repeat constructor; eauto.
  - exists [ Console Log "Database connection closed" [] ].
    split; [reflexivity|]. repeat constructor; eauto.
Qed.

(** C10: when the listings table is empty and the statement succeeds,
    GET /crops answers 200 with { "crops": [] }. *)
Theorem crops_empty_table (f : db_file) (req : request) :
  store_product (contents f) = [] ->
  fault f distinctCropsQuery = None ->
  responses (getCrops (sqlite3_Database f) req) = [(200, JObj [("crops", JArr [])])].
Proof.
  intros Hempty Hok. rewrite (getCrops_success f req Hok), Hempty. reflexivity.
Qed.

Lemma crops_empty_table_witness :
  responses (getCrops
               (sqlite3_Database
                  (healthy {| store_product := []; app_userprofile := ∅ |}))
               (GET []))
  = [(200, JObj [("crops", JArr [])])].
Proof.
  apply (crops_empty_table (healthy {| store_product := []; app_userprofile := ∅ |}) (GET []));
    reflexivity.
Defined.

(** * Further properties of the handlers *)

Section Runs.

Variable db : Database.
Variable req : request.

Lemma defined_props_keys (props : list (string * option value)) :
  sublist (map fst (defined_props props)) (map fst props).
Proof.
  induction props as [|[k [v|]] props IH]; simpl.
  - constructor.
  - apply sublist_skip, IH.
  - apply sublist_cons, IH.
Qed.

Lemma getCrops_run :
  getCrops db req =
    Query distinctCropsQuery [] ::
    match all db distinctCropsQuery [] with
    | inl err =>
        [ Console Error "Error fetching crops:" [AText err];
          Respond 500 (error_body "Error fetching crops") ]
    | inr rows =>
        [ Respond 200
            (JObj [("crops",
                    JArr (map (fun r => json_item (get r "product_name")) rows))]) ]
    end.
Proof. reflexivity. Qed.

(** A run of the dashboard handler ends with its only response. *)
Lemma getDashboard_ends_with_response :
  exists tr status body,
    getDashboard db req = tr ++ [Respond status body] /\ responses tr = [].
Proof.
  unfold getDashboard, db_all.
  destruct (query req !! "crop") as [[|c crop]|].
  - exists [], 400, (error_body "Crop name is required"). split; reflexivity.
  - destruct (all db debugQuery _) as [err|raw].
    + eexists [_; _], 500, _. split; reflexivity.
    + destruct (all db aggregateQuery _) as [err|rows].
      * eexists [_; _; _; _], 500, _. split; reflexivity.
      * eexists (_ :: _ :: _ :: _ :: flat_map _ rows), 200, _.
        split; [reflexivity|]. cbn [responses].
        exact (proj1 (warnings_silent rows
          (fun r => ("Warning: Min and Max prices are equal for "
                       +:+ interpolate (get r "state") +:+ ":",
                     [AValue (get r "all_prices")]))
          (fun r => strict_eq (get r "min_price") (get r "max_price")))).
  - exists [], 400, (error_body "Crop name is required"). split; reflexivity.
Qed.

End Runs.

(** X1: every run of either handler answers exactly once, and the answer is
    its last effect: nothing is sent, logged or queried after it. *)
Theorem handlers_answer_once_last (db : Database) (req : request) :
  (exists tr status body,
     getCrops db req = tr ++ [Respond status body] /\ responses tr = []) /\
  (exists tr status body,
     getDashboard db req = tr ++ [Respond status body] /\ responses tr = []).
Proof.
  split; [|apply getDashboard_ends_with_response].
  rewrite getCrops_run.
  destruct (all db distinctCropsQuery []) as [err|rows].
  - eexists [_; _], 500, _. split; reflexivity.
  - eexists [_], 200, _. split; reflexivity.
Qed.

(** X2: the status of a dashboard answer tells what happened: 400 exactly
    when the crop parameter is absent or empty, 200 exactly when it is
    present and both statements succeed, 500 exactly when it is present and
    one of the two statements fails. *)
Theorem dashboard_status_cases (db : Database) (req : request) :
  exists status body,
    responses (getDashboard db req) = [(status, body)] /\
    (status = 400 <->
       query req !! "crop" = None \/ query req !! "crop" = Some "") /\
    (status = 200 <->
       exists crop raw rows,
         query req !! "crop" = Some crop /\ crop <> "" /\
         all db debugQuery [crop] = inr raw /\
         all db aggregateQuery [crop] = inr rows) /\
    (status = 500 <->
       exists crop err,
         query req !! "crop" = Some crop /\ crop <> "" /\
         (all db debugQuery [crop] = inl err \/
          all db aggregateQuery [crop] = inl err)).
Proof.
  destruct (query req !! "crop") as [crop|] eqn:Hcrop.
  2:{ rewrite (getDashboard_no_crop db req) by (left; exact Hcrop).
      eexists _, _. split; [reflexivity|]. split; [|split].
      - split; [intros _; left; reflexivity | reflexivity].
      - split; [discriminate | intros (c & ? & ? & ? & _); discriminate].
      - split; [discriminate | intros (c & ? & ? & _); discriminate]. }
  destruct (decide (crop = "")) as [-> | Hne].
  { rewrite (getDashboard_no_crop db req) by (right; exact Hcrop).
    eexists _, _. split; [reflexivity|]. split; [|split].
    - split; [intros _; right; reflexivity | reflexivity].
    - split; [discriminate | intros (c & ? & ? & [= <-] & Hc & _); congruence].
    - split; [discriminate | intros (c & ? & [= <-] & Hc & _); congruence]. }
  rewrite (getDashboard_responses db req crop Hcrop Hne).
  destruct (all db debugQuery [crop]) as [err|raw] eqn:Hdebug.
  { eexists _, _. split; [reflexivity|]. split; [|split].
    - split; [discriminate | intros [? | [= ?]]; congruence].
    - split; [discriminate|].
      intros (c & ? & ? & [= <-] & _ & ? & _). congruence.
    - split; [|reflexivity]. intros _. exists crop, err. auto. }
  destruct (all db aggregateQuery [crop]) as [err|rows] eqn:Hagg.
  { eexists _, _. split; [reflexivity|]. split; [|split].
    - split; [discriminate | intros [? | [= ?]]; congruence].
    - split; [discriminate|].
      intros (c & ? & ? & [= <-] & _ & _ & ?). congruence.
    - split; [|reflexivity]. intros _. exists crop, err. auto. }
  eexists _, _. split; [reflexivity|]. split; [|split].
  - split; [discriminate | intros [? | [= ?]]; congruence].
  - split; [|reflexivity]. intros _. exists crop, raw, rows. auto.
  - split; [discriminate|].
    intros (c & ? & [= <-] & _ & [? | ?]); congruence.
Qed.

(** X3: what a storage failure says never reaches the client: two handles
    that fail on the same calls, with whatever messages, and return the same
    rows otherwise, get the same answers from both handlers. *)
Theorem error_detail_stays_on_console (db db' : Database) (req : request) :
  (forall sql params, same_outcome (all db sql params) (all db' sql params)) ->
  responses (getCrops db req) = responses (getCrops db' req) /\
  responses (getDashboard db req) = responses (getDashboard db' req).
Proof.
  intros Hsame. split.
  - rewrite !getCrops_responses.
    pose proof (Hsame distinctCropsQuery []) as H.
    destruct (all db distinctCropsQuery []), (all db' distinctCropsQuery []);
      simpl in H; try contradiction; congruence.
  - destruct (query req !! "crop") as [crop|] eqn:Hcrop.
    2:{ rewrite !getDashboard_no_crop by (left; exact Hcrop). reflexivity. }
    destruct (decide (crop = "")) as [-> | Hne].
    { rewrite !getDashboard_no_crop by (right; exact Hcrop). reflexivity. }
    rewrite (getDashboard_responses db req crop Hcrop Hne).
    rewrite (getDashboard_responses db' req crop Hcrop Hne).
    pose proof (Hsame debugQuery [crop]) as Hd.
    pose proof (Hsame aggregateQuery [crop]) as Ha.
    destruct (all db debugQuery [crop]), (all db' debugQuery [crop]);
      simpl in Hd; try contradiction; [reflexivity|].
    destruct (all db aggregateQuery [crop]), (all db' aggregateQuery [crop]);
      simpl in Ha; try contradiction; congruence.
Qed.

Lemma error_detail_stays_on_console_witness :
  responses (getCrops (broken "SQLITE_CANTOPEN: unable to open database file")
               (GET [("crop", "wheat")]))
    = responses (getCrops (broken "SQLITE_BUSY: database is locked")
                   (GET [("crop", "wheat")])) /\
  responses (getDashboard (broken "SQLITE_CANTOPEN: unable to open database file")
               (GET [("crop", "wheat")]))
    = responses (getDashboard (broken "SQLITE_BUSY: database is locked")
                   (GET [("crop", "wheat")])).
Proof.
  apply (error_detail_stays_on_console
           (broken "SQLITE_CANTOPEN: unable to open database file")
           (broken "SQLITE_BUSY: database is locked")
           (GET [("crop", "wheat")])).
  intros sql params. simpl. exact I.
Defined.

(** X4: when a statement of GET /crops fails, the handler has sent that one
    statement, without parameters, writes the message on the console and
    answers 500 with {"error": "Error fetching crops"}. *)
Theorem crops_storage_failure (db : Database) (req : request) (err : string) :
  all db distinctCropsQuery [] = inl err ->
  queries (getCrops db req) = [(distinctCropsQuery, [])] /\
  console (getCrops db req) = [(Error, "Error fetching crops:", [AText err])] /\
  responses (getCrops db req) = [(500, JObj [("error", JStr "Error fetching crops")])].
Proof.
  intros Herr. rewrite getCrops_run, Herr. repeat split.
Qed.

Lemma crops_storage_failure_witness :
  queries (getCrops (broken "SQLITE_BUSY: database is locked") (GET []))
    = [(distinctCropsQuery, [])] /\
  console (getCrops (broken "SQLITE_BUSY: database is locked") (GET []))
    = [(Error, "Error fetching crops:", [AText "SQLITE_BUSY: database is locked"])] /\
  responses (getCrops (broken "SQLITE_BUSY: database is locked") (GET []))
    = [(500, JObj [("error", JStr "Error fetching crops")])].
Proof.
  apply (crops_storage_failure (broken "SQLITE_BUSY: database is locked") (GET [])
           "SQLITE_BUSY: database is locked").
  reflexivity.
Defined.

(** X5: the dashboard copies nothing but the four columns state, min_price,
    max_price, price_count, in that order, whatever the rows hold: one
    object per row, a column that a row lacks is left out of its object, and
    no other column (all_prices included) is ever sent. *)
Theorem dashboard_sends_four_columns (db : Database) (req : request)
    (crop : string) (raw rows : list row) :
  query req !! "crop" = Some crop ->
  crop <> "" ->
  all db debugQuery [crop] = inr raw ->
  all db aggregateQuery [crop] = inr rows ->
  exists objects : list (list (string * json)),
    responses (getDashboard db req) = [(200, JArr (map JObj objects))] /\
    length objects = length rows /\
    Forall (fun fields => sublist (map fst fields) dashboard_fields) objects.
Proof.
  intros Hcrop Hne Hraw Hrows.
  exists (map (fun r => defined_props [ ("state", get r "state");
                                        ("min_price", get r "min_price");
                                        ("max_price", get r "max_price");
                                        ("price_count", get r "price_count") ]) rows).
  split; [|split].
  - rewrite (getDashboard_responses db req crop Hcrop Hne), Hraw, Hrows, map_map.
    reflexivity.
  - apply length_map.
  - apply Forall_forall. intros fields (r & -> & _)%list_elem_of_fmap.
    apply (defined_props_keys [ ("state", get r "state");
                                ("min_price", get r "min_price");
                                ("max_price", get r "max_price");
                                ("price_count", get r "price_count") ]).
Qed.

Lemma dashboard_sends_four_columns_witness :
  exists objects : list (list (string * json)),
    responses (getDashboard sparse (GET [("crop", "wheat")]))
      = [(200, JArr (map JObj objects))] /\
    length objects = 1%nat /\
    Forall (fun fields => sublist (map fst fields) dashboard_fields) objects.
Proof.
  apply (dashboard_sends_four_columns sparse (GET [("crop", "wheat")]) "wheat" []
           [ [("state", VText "North"); ("all_prices", VText "10");
              ("farmerID", VNum 7)] ]).
  - vm_compute. reflexivity.
  - discriminate.
  - reflexivity.
  - reflexivity.
Defined.

(** X6: on a database file without faults neither handler ever answers 500:
    the statements are sent with as many parameters as they have
    placeholders.  GET /crops answers 200, GET /dashboard 200 or 400. *)
Theorem fault_free_never_500 (t : tables) (req : request) :
  (exists body,
     responses (getCrops (sqlite3_Database (healthy t)) req) = [(200, body)]) /\
  (exists status body,
     responses (getDashboard (sqlite3_Database (healthy t)) req) = [(status, body)] /\
     (status = 200 \/ status = 400)).
Proof.
  split.
  - eexists. apply (getCrops_success (healthy t) req). reflexivity.
  - destruct (query req !! "crop") as [crop|] eqn:Hcrop.
    2:{ rewrite getDashboard_no_crop by (left; exact Hcrop).
        eexists _, _. split; [reflexivity | right; reflexivity]. }
    destruct (decide (crop = "")) as [-> | Hne].
    { rewrite getDashboard_no_crop by (right; exact Hcrop).
      eexists _, _. split; [reflexivity | right; reflexivity]. }
    rewrite (getDashboard_success (healthy t) req crop Hcrop Hne eq_refl eq_refl).
    eexists _, _. split; [reflexivity | left; reflexivity].
Qed.

(** * Further properties of the statements *)

Section Ordering.








End Ordering.

Section Totals.

Lemma total_count_insert (s : string) (p : Z) (gs : list group) :
  total_count (group_insert s p gs) = total_count gs + 1.
Proof.
  induction gs as [|g gs IH]; simpl; [reflexivity|].
  destruct (String.compare s (g_state g)); simpl; [lia | lia | rewrite IH; lia].
Qed.

Lemma total_count_rows (rs : list (string * Z)) :
  total_count (group_by_state rs) = Z.of_nat (length rs).
Proof.
  unfold group_by_state. induction rs as [|r rs IH] using rev_ind; [reflexivity|].
  rewrite fold_left_app, length_app. simpl.
  rewrite total_count_insert, IH. lia.
Qed.

Lemma joined_length (t : tables) (crop : string) :
  length (joined t (Some crop)) = length (sold_listings t crop).
Proof.
  unfold joined, sold_listings.
  induction (store_product t) as [|sp l IH]; simpl; [reflexivity|].
  rewrite length_app, IH, filter_cons.
  destruct (app_userprofile t !! farmerID sp) as [state|] eqn:Hup.
  - case_bool_decide as Hname.
    + rewrite decide_True by (split; [congruence | eexists; reflexivity]). reflexivity.
    + rewrite decide_False by (intros [H _]; congruence). reflexivity.
  - rewrite decide_False by (intros [_ [? H]]; discriminate). reflexivity.
Qed.


End Totals.




(** X8: in a successful dashboard answer the price_count values add up to
    the number of listings of the crop that have a seller profile: every
    such listing is counted in exactly one region. *)
Theorem dashboard_counts_add_up (f : db_file) (req : request) (crop : string) :
  query req !! "crop" = Some crop ->
  crop <> "" ->
  fault f debugQuery = None ->
  fault f aggregateQuery = None ->
  exists gs : list group,
    responses (getDashboard (sqlite3_Database f) req)
      = [(200, JArr (map group_entry gs))] /\
    total_count gs = Z.of_nat (length (sold_listings (contents f) crop)).
Proof.
  intros Hcrop Hne Hdebug Hagg.
  exists (group_by_state (joined (contents f) (Some crop))).
  split; [exact (getDashboard_success f req crop Hcrop Hne Hdebug Hagg)|].
  rewrite total_count_rows, joined_length. reflexivity.
Qed.

Lemma dashboard_counts_add_up_witness :
  exists gs : list group,
    responses (getDashboard (sqlite3_Database (healthy wheat_tables))
                 (GET [("crop", "wheat")]))
      = [(200, JArr (map group_entry gs))] /\
    total_count gs = Z.of_nat (length (sold_listings wheat_tables "wheat")).
Proof.
  apply (dashboard_counts_add_up (healthy wheat_tables)
           (GET [("crop", "wheat")]) "wheat").
  - vm_compute. reflexivity.
  - discriminate.
  - reflexivity.
  - reflexivity.
Defined.





Section Independence.

Lemma ascending_unique (l1 l2 : list string) :
  StronglySorted state_lt l1 -> StronglySorted state_lt l2 ->
  (forall x, x ∈ l1 <-> x ∈ l2) -> l1 = l2.
Proof.
  revert l2. induction l1 as [|a l1 IH]; intros [|b l2] H1 H2 Hsame.
  - reflexivity.
  - exfalso. apply (not_elem_of_nil b), Hsame. left.
  - exfalso. apply (not_elem_of_nil a), Hsame. left.
  - apply StronglySorted_inv in H1 as [H1 Ha]. apply StronglySorted_inv in H2 as [H2 Hb].
    rewrite Forall_forall in Ha, Hb.
    assert (a = b) as <-.
    { pose proof (proj1 (Hsame a) ltac:(left)) as Hab.
      pose proof (proj2 (Hsame b) ltac:(left)) as Hba.
      apply elem_of_cons in Hab as [Hab | Hab]; [exact Hab|].
      apply elem_of_cons in Hba as [Hba | Hba]; [symmetry; exact Hba|].
      exfalso. apply (state_lt_irrefl a).
      exact (state_lt_trans _ _ _ (Ha b Hba) (Hb a Hab)). }
    f_equal. apply IH; [exact H1 | exact H2|].
    intros x. split; intros Hx.
    + pose proof (proj1 (Hsame x) ltac:(right; exact Hx)) as Hx'.
      apply elem_of_cons in Hx' as [-> | Hx']; [|exact Hx'].
      exfalso. exact (state_lt_irrefl a (Ha a Hx)).
    + pose proof (proj2 (Hsame x) ltac:(right; exact Hx)) as Hx'.
      apply elem_of_cons in Hx' as [-> | Hx']; [|exact Hx'].
      exfalso. exact (state_lt_irrefl a (Hb a Hx)).
Qed.

Lemma entries_agree (gs gs' : list group) :
  map g_state gs = map g_state gs' ->
  (forall g g', g ∈ gs -> g' ∈ gs' -> g_state g = g_state g' ->
                group_entry g = group_entry g') ->
  map group_entry gs = map group_entry gs'.
Proof.
  revert gs'. induction gs as [|g gs IH]; intros [|g' gs'] Hstates Hentry;
    try discriminate Hstates; [reflexivity|].
  simpl in Hstates. injection Hstates as Hs Hrest. simpl. f_equal.
  - apply Hentry; [left | left | exact Hs].
  - apply IH; [exact Hrest|].
    intros h h' Hh Hh'. apply Hentry; right; assumption.
Qed.

(** The answer entries depend on the joined rows only up to their order. *)
Lemma grouped_entries (rs rs' : list (string * Z)) (gs gs' : list group) :
  rs ≡ₚ rs' -> grouped rs gs -> grouped rs' gs' ->
  map group_entry gs = map group_entry gs'.
Proof.
  intros Hperm (Hs & Hsum & Hstates) (Hs' & Hsum' & Hstates').
  apply entries_agree.
  - apply ascending_unique; [exact Hs | exact Hs'|].
    intros x. rewrite Hstates, Hstates'.
    pose proof (Permutation_map fst Hperm) as Hfst.
    split; intros Hx; [rewrite <- Hfst | rewrite Hfst]; exact Hx.
  - intros g g' Hg Hg' Heq.
    destruct (Hsum g Hg) as [Hp Hc Hmin Hmax Hb].
    destruct (Hsum' g' Hg') as [Hp' Hc' Hmin' Hmax' Hb'].
    assert (g_prices g ≡ₚ g_prices g') as Hprices.
    { rewrite Hp, Hp', Heq. unfold prices_of.
      apply Permutation_map. rewrite Hperm. reflexivity. }
    assert (g_count g = g_count g') as Hcount
      by (rewrite Hc, Hc', (Permutation_length Hprices); reflexivity).
    assert (g_min g = g_min g') as Hmineq.
    { rewrite Hprices in Hmin. rewrite <- Hprices in Hmin'.
      pose proof (Hb' _ Hmin). pose proof (Hb _ Hmin'). lia. }
    assert (g_max g = g_max g') as Hmaxeq.
    { rewrite Hprices in Hmax. rewrite <- Hprices in Hmax'.
      pose proof (Hb' _ Hmax). pose proof (Hb _ Hmax'). lia. }
    unfold group_entry. rewrite Heq, Hcount, Hmineq, Hmaxeq. reflexivity.
Qed.

Lemma joined_drop (m : gmap Z string) (l1 l2 : list listing) (sp : listing)
    (crop : string) :
  m !! farmerID sp = None \/ product_name sp <> crop ->
  joined {| store_product := l1 ++ sp :: l2; app_userprofile := m |} (Some crop) =
  joined {| store_product := l1 ++ l2; app_userprofile := m |} (Some crop).
Proof.
  intros Hskip. unfold joined. simpl. rewrite !flat_map_app. simpl.
  destruct (m !! farmerID sp) as [state|] eqn:Hup; [|reflexivity].
  case_bool_decide as Hname; [|reflexivity].
  destruct Hskip as [H | H]; congruence.
Qed.

(** A run depends on the handle only through the two calls it makes. *)
Lemma getDashboard_ext (db db' : Database) (req : request) :
  (forall crop, query req !! "crop" = Some crop ->
     all db debugQuery [crop] = all db' debugQuery [crop] /\
     all db aggregateQuery [crop] = all db' aggregateQuery [crop]) ->
  getDashboard db req = getDashboard db' req.
Proof.
  intros Hsame. unfold getDashboard, db_all.
  destruct (query req !! "crop") as [[|c crop]|]; try reflexivity.
  destruct (Hsame (String c crop) eq_refl) as [-> ->]. reflexivity.
Qed.

Lemma distinct_length (seen names : list string) :
  (length (distinct seen names) <= length names)%nat.
Proof.
  revert seen. induction names as [|n names IH]; intros seen; simpl; [lia|].
  case_bool_decide; simpl; [specialize (IH seen) | specialize (IH (n :: seen))]; lia.
Qed.

End Independence.

(** X11: a listing without a seller profile, or of another crop than the
    one asked for, does not show in a dashboard run: with or without it in
    the table, the statements sent, the console lines and the answer are
    the same. *)
Theorem dashboard_ignores_other_listings (f : db_file) (req : request)
    (l1 l2 : list listing) (sp : listing) :
  app_userprofile (contents f) !! farmerID sp = None \/
  query req !! "crop" <> Some (product_name sp) ->
  getDashboard (sqlite3_Database (restock f (l1 ++ sp :: l2))) req =
  getDashboard (sqlite3_Database (restock f (l1 ++ l2))) req.
Proof.
  intros Hskip. apply getDashboard_ext. intros crop Hcrop.
  assert (joined (contents (restock f (l1 ++ sp :: l2))) (Some crop) =
          joined (contents (restock f (l1 ++ l2))) (Some crop)) as Hjoined.
  { apply joined_drop. destruct Hskip as [H | H]; [left; exact H | right].
    intros Hname. apply H. rewrite Hcrop, Hname. reflexivity. }
  simpl. split.
  - destruct (fault f debugQuery); [reflexivity|]. simpl.
    simpl in Hjoined. rewrite Hjoined. reflexivity.
  - destruct (fault f aggregateQuery); [reflexivity|]. simpl.
    simpl in Hjoined. rewrite Hjoined. reflexivity.
Qed.

Lemma dashboard_ignores_other_listings_witness :
  getDashboard
    (sqlite3_Database
       (restock (healthy wheat_tables)
          ([ {| product_name := "wheat"; price := 10; farmerID := 1 |} ] ++
           {| product_name := "wheat"; price := 99; farmerID := 8 |} ::
           [ {| product_name := "wheat"; price := 15; farmerID := 3 |} ])))
    (GET [("crop", "wheat")]) =
  getDashboard
    (sqlite3_Database
       (restock (healthy wheat_tables)
          ([ {| product_name := "wheat"; price := 10; farmerID := 1 |} ] ++
           [ {| product_name := "wheat"; price := 15; farmerID := 3 |} ])))
    (GET [("crop", "wheat")]).
Proof.
  apply (dashboard_ignores_other_listings (healthy wheat_tables)
           (GET [("crop", "wheat")])
           [ {| product_name := "wheat"; price := 10; farmerID := 1 |} ]
           [ {| product_name := "wheat"; price := 15; farmerID := 3 |} ]
           {| product_name := "wheat"; price := 99; farmerID := 8 |}).
  left. vm_compute. reflexivity.
Defined.

(** X12: the dashboard answer does not depend on the order of the rows of
    the listings table: two tables with the same listings get the same
    answer, for every request and every fault of the file. *)
Theorem dashboard_answer_order_independent (f : db_file) (req : request)
    (l l' : list listing) :
  l ≡ₚ l' ->
  responses (getDashboard (sqlite3_Database (restock f l)) req) =
  responses (getDashboard (sqlite3_Database (restock f l')) req).
Proof.
  intros Hperm.
  destruct (query req !! "crop") as [crop|] eqn:Hcrop.
  2:{ rewrite !getDashboard_no_crop by (left; exact Hcrop). reflexivity. }
  destruct (decide (crop = "")) as [-> | Hne].
  { rewrite !getDashboard_no_crop by (right; exact Hcrop). reflexivity. }
  rewrite !(getDashboard_responses _ req crop Hcrop Hne). simpl.
  destruct (fault f debugQuery); [reflexivity|]. simpl.
  destruct (fault f aggregateQuery); [reflexivity|]. simpl.
  rewrite !map_map. do 3 f_equal.
  change (map group_entry
            (group_by_state (joined (contents (restock f l)) (Some crop))) =
          map group_entry
            (group_by_state (joined (contents (restock f l')) (Some crop)))).
  eapply grouped_entries; [|apply group_by_state_grouped..].
  unfold joined. simpl. apply Permutation_flat_map, Hperm.
Qed.

Lemma dashboard_answer_order_independent_witness :
  responses (getDashboard
               (sqlite3_Database
                  (restock (healthy wheat_tables)
                     [ {| product_name := "wheat"; price := 15; farmerID := 3 |};
                       {| product_name := "wheat"; price := 10; farmerID := 1 |} ]))
               (GET [("crop", "wheat")])) =
  responses (getDashboard
               (sqlite3_Database
                  (restock (healthy wheat_tables)
                     [ {| product_name := "wheat"; price := 10; farmerID := 1 |};
                       {| product_name := "wheat"; price := 15; farmerID := 3 |} ]))
               (GET [("crop", "wheat")])).
Proof.
  apply (dashboard_answer_order_independent (healthy wheat_tables)
           (GET [("crop", "wheat")])).
  apply Permutation_swap.
Defined.

(** X13: the two endpoints agree: when all statements succeed, a crop for
    which the dashboard answers with at least one region is one of the
    names that GET /crops lists. *)
Theorem dashboard_crop_is_listed (f : db_file) (req req' : request) (crop : string) :
  query req !! "crop" = Some crop ->
  crop <> "" ->
  fault f debugQuery = None ->
  fault f aggregateQuery = None ->
  fault f distinctCropsQuery = None ->
  exists (gs : list group) (names : list string),
    responses (getDashboard (sqlite3_Database f) req)
      = [(200, JArr (map group_entry gs))] /\
    responses (getCrops (sqlite3_Database f) req')
      = [(200, JObj [("crops", JArr (map JStr names))])] /\
    (gs = [] \/ crop ∈ names).
Proof.
  intros Hcrop Hne Hdebug Hagg Hdistinct.
  exists (group_by_state (joined (contents f) (Some crop))),
         (distinct [] (map product_name (store_product (contents f)))).
  split; [exact (getDashboard_success f req crop Hcrop Hne Hdebug Hagg)|].
  split; [exact (getCrops_success f req' Hdistinct)|].
  destruct (decide (crop ∈ distinct [] (map product_name (store_product (contents f)))))
    as [Hin | Hnot]; [right; exact Hin | left].
  rewrite joined_absent; [reflexivity|].
  intros sp Hsp Hname. apply Hnot. apply distinct_elem.
  split; [|apply not_elem_of_nil].
  apply list_elem_of_fmap. exists sp. split; [symmetry; exact Hname | exact Hsp].
Qed.

Lemma dashboard_crop_is_listed_witness :
  exists (gs : list group) (names : list string),
    responses (getDashboard (sqlite3_Database (healthy wheat_tables))
                 (GET [("crop", "wheat")]))
      = [(200, JArr (map group_entry gs))] /\
    responses (getCrops (sqlite3_Database (healthy wheat_tables)) (GET []))
      = [(200, JObj [("crops", JArr (map JStr names))])] /\
    (gs = [] \/ "wheat" ∈ names).
Proof.
  apply (dashboard_crop_is_listed (healthy wheat_tables)
           (GET [("crop", "wheat")]) (GET []) "wheat").
  - vm_compute. reflexivity.
  - discriminate.
  - reflexivity.
  - reflexivity.
  - reflexivity.
Defined.

(** X14: a successful GET /crops never lists more names than the table has
    listings, and lists none only when the table is empty. *)
Theorem crops_none_only_when_empty (f : db_file) (req : request) :
  fault f distinctCropsQuery = None ->
  exists names : list string,
    responses (getCrops (sqlite3_Database f) req)
      = [(200, JObj [("crops", JArr (map JStr names))])] /\
    (length names <= length (store_product (contents f)))%nat /\
    (names = [] <-> store_product (contents f) = []).
Proof.
  intros Hok.
  exists (distinct [] (map product_name (store_product (contents f)))).
  split; [exact (getCrops_success f req Hok)|]. split.
  - rewrite <- (length_map product_name). apply distinct_length.
  - destruct (store_product (contents f)) as [|sp l]; [split; reflexivity|].
    split; [|discriminate]. intros Hnil. exfalso.
    apply (not_elem_of_nil (product_name sp)). rewrite <- Hnil.
    apply distinct_elem. split; [left | apply not_elem_of_nil].
Qed.

Lemma crops_none_only_when_empty_witness :
  exists names : list string,
    responses (getCrops (sqlite3_Database (healthy blank_tables)) (GET []))
      = [(200, JObj [("crops", JArr (map JStr names))])] /\
    (length names <= length (store_product blank_tables))%nat /\
    (names = [] <-> store_product blank_tables = []).
Proof.
  apply (crops_none_only_when_empty (healthy blank_tables) (GET [])).
  reflexivity.
Defined.

(** X15: on SIGINT the console always ends with "Database connection
    closed", also when the close failed; a failed close adds, before it,
    one error line with the message.  No statement is sent and no HTTP
    answer is given during shutdown. *)
Theorem shutdown_console (db : Database) :
  console (deliver "SIGINT" (serverManager.setupShutdown db [])) =
    match close db with
    | Some msg => [(Error, "Error closing database:", [AText msg])]
    | None => []
    end ++ [(Log, "Database connection closed", [])] /\
  queries (deliver "SIGINT" (serverManager.setupShutdown db [])) = [] /\
  responses (deliver "SIGINT" (serverManager.setupShutdown db [])) = [].
Proof.
  unfold deliver, serverManager.setupShutdown, serverManager.on_SIGINT, db_close.
  simpl. destruct (close db); repeat split.
Qed.

(** X16: [setupShutdown] installs a listener for SIGINT only: what any other
    signal triggers is what it triggered before. *)
Theorem shutdown_only_on_sigint (db : Database)
    (listeners : list (string * list event)) (signal : string) :
  signal <> "SIGINT" ->
  deliver signal (serverManager.setupShutdown db listeners) = deliver signal listeners.
Proof.
  intros Hne. unfold deliver, serverManager.setupShutdown.
  rewrite flat_map_app. cbn [flat_map fst snd].
  destruct (String.eqb "SIGINT" signal) eqn:Heq.
  - apply String.eqb_eq in Heq. congruence.
  - rewrite !app_nil_r. reflexivity.
Qed.

Lemma shutdown_only_on_sigint_witness :
  deliver "SIGTERM"
    (serverManager.setupShutdown (sqlite3_Database (healthy wheat_tables)) []) =
  deliver "SIGTERM" [].
Proof.
  apply (shutdown_only_on_sigint (sqlite3_Database (healthy wheat_tables)) [] "SIGTERM").
  discriminate.
Defined.

(** X17: the dashboard handler sends at most two statements, only the debug
    and the aggregate one, and each time binds, as the only parameter, the
    crop exactly as the request gave it. *)
Theorem dashboard_binds_crop (db : Database) (req : request) :
  (length (queries (getDashboard db req)) <= 2)%nat /\
  forall sql params,
    (sql, params) ∈ queries (getDashboard db req) ->
    (sql = debugQuery \/ sql = aggregateQuery) /\
    exists crop, query req !! "crop" = Some crop /\ crop <> "" /\ params = [crop].
Proof.
  destruct (query req !! "crop") as [crop|] eqn:Hcrop.
  2:{ rewrite getDashboard_no_crop by (left; exact Hcrop). simpl.
      split; [lia|]. intros sql params Hin. inversion Hin. }
  destruct (decide (crop = "")) as [-> | Hne].
  { rewrite getDashboard_no_crop by (right; exact Hcrop). simpl.
    split; [lia|]. intros sql params Hin. inversion Hin. }
  rewrite (getDashboard_queries db req crop Hcrop Hne).
  destruct (all db debugQuery [crop]); simpl; (split; [lia|]);
    intros sql params Hin;
    repeat (apply elem_of_cons in Hin as [[= -> ->] | Hin];
            [split; [auto | exists crop; auto]|]);
    inversion Hin.
Qed.
